(** * Subscription endpoints of the polar server

    A shallow embedding of [server/polar/subscription/endpoints.py]:
    the search, summary and feature-flag code paths of the
    [/subscriptions] router.  Every data-store access a handler makes is
    recorded in a trace of [Call]s, so that the order of lookups and the
    absence of a query can be stated.  The organization, repository and
    subscription services the handlers call are not part of the source
    tree here; they are modelled from the specification and marked so. *)

From Stdlib Require Import List String Bool Arith Lia Permutation.
Import ListNotations.

(** ** Data model *)

Inductive Platforms := github.

Definition Platforms_eqb (a b : Platforms) : bool :=
  match a, b with github, github => true end.

Inductive SubscriptionTierType := hobby | pro | business.

Definition SubscriptionTierType_eqb (a b : SubscriptionTierType) : bool :=
  match a, b with
  | hobby, hobby | pro, pro | business, business => true
  | _, _ => false
  end.

Record User := { user_id : nat; posthog_distinct_id : string }.

(** [auth.subject]: the optional user of [Auth.optional_user]. *)
Inductive Subject := Anonymous | UserSubject (u : User).

Record Organization := {
  organization_id : nat;
  organization_platform : Platforms;
  organization_name : string }.

Record Repository := {
  repository_id : nat;
  repository_organization_id : nat;
  repository_name : string }.

Record SubscriptionTier := {
  tier_id : nat;
  tier_type : SubscriptionTierType;
  tier_price_amount : nat;
  tier_organization_id : nat;
  tier_repository_id : option nat;
  tier_is_archived : bool }.

Record date := { year : nat; month : nat; day : nat }.

Record Subscription := {
  subscription_id : nat;
  subscribed_tier_id : nat;
  subscriber_id : nat;
  started_at : date;
  ended_at : option date }.

(** The persisted snapshot a request reads from. *)
Record DB := {
  organizations : list Organization;
  repositories : list Repository;
  subscription_tiers : list SubscriptionTier;
  subscriptions : list Subscription;
  organization_members : list (nat * nat) (* (user id, organization id) *) }.

(** [PaginationParamsQuery]: a 1-based page and a page size. *)
Record PaginationParams := { page : nat; limit : nat }.

Inductive SearchSortProperty :=
  sort_user | sort_status | sort_started_at | sort_current_period_end
| sort_price_amount | sort_subscription_tier_type | sort_subscription_tier.

(** [SearchSorting]: sort keys, each with its descending flag. *)
Definition SearchSorting := list (SearchSortProperty * bool).

(** ** Errors, data-store calls and the request monad *)

Inductive Error :=
| ResourceNotFound (message : string)
| BadRequest (message : string)
| HTTPException (status_code : nat) (detail : string)
| NotAuthenticated
| RequestValidationError (message : string).

Inductive result (A : Type) := Ok (a : A) | Err (e : Error).
Arguments Ok {A} a.
Arguments Err {A} e.

Inductive Call :=
| OrgGetByName (platform : Platforms) (name : string)
| RepoGetByOrgAndName (org : nat) (name : string)
| TierSearch (subject : Subject) (type : option SubscriptionTierType)
    (organization : option Organization) (repository : option Repository)
    (direct_organization include_archived : bool) (pagination : PaginationParams)
| SubscriptionSearch (user : User) (type : option SubscriptionTierType)
    (organization : option Organization) (repository : option Repository)
    (direct_organization : bool) (tier subscriber : option nat)
    (pagination : PaginationParams) (sorting : SearchSorting)
| PeriodsSummary (user : User) (start_date end_date : date)
    (organization : option Organization) (repository : option Repository)
    (direct_organization : bool) (type : option SubscriptionTierType)
    (tier : option nat).

(** A handler reads the snapshot, logs the queries it issues and ends in a
    value or an exception. *)
Definition M (A : Type) := DB -> list Call * result A.

Definition ret {A} (a : A) : M A := fun _ => ([], Ok a).
Definition raise {A} (e : Error) : M A := fun _ => ([], Err e).
Definition bind {A B} (m : M A) (k : A -> M B) : M B := fun db =>
  match m db with
  | (t1, Ok a) => let (t2, r) := k a db in (t1 ++ t2, r)
  | (t1, Err e) => (t1, Err e)
  end.
Definition query {A} (c : Call) (run : DB -> result A) : M A :=
  fun db => ([c], run db).

Notation "x <- m ;; k" := (bind m (fun x => k))
  (at level 61, m at next level, right associativity).

(** ** Generic helpers *)

Fixpoint insert_by {A} (key : A -> nat) (x : A) (l : list A) : list A :=
  match l with
  | [] => [x]
  | y :: l' => if key x <=? key y then x :: l else y :: insert_by key x l'
  end.

Fixpoint sort_by {A} (key : A -> nat) (l : list A) : list A :=
  match l with
  | [] => []
  | x :: l' => insert_by key x (sort_by key l')
  end.

Definition option_nat_eqb (a b : option nat) : bool :=
  match a, b with
  | Some x, Some y => x =? y
  | None, None => true
  | _, _ => false
  end.

(** Modelled from the spec: [polar.kit.pagination] is not in the source
    tree.  A (limit, offset) window with offset [(page - 1) * limit]. *)
Definition paginate {A} (p : PaginationParams) (l : list A) : list A :=
  firstn (limit p) (skipn ((page p - 1) * limit p) l).

Record Pagination := { total_count : nat; max_page : nat }.

Record ListResource (A : Type) := { items : list A; pagination : Pagination }.
Arguments items {A} l.
Arguments pagination {A} l.
Arguments Build_ListResource {A} items pagination.

(** Modelled from the spec: [ListResource.from_paginated_results] keeps the
    page and reports the count computed before windowing. *)
Definition from_paginated_results {A} (results : list A) (count : nat)
    (p : PaginationParams) : ListResource A :=
  {| items := results;
     pagination := {| total_count := count;
                      max_page := (count + limit p - 1) / limit p |} |}.

(** ** Services *)

(** Modelled from the spec: [organization_service.get_by_name], the
    Organization unique by (platform, name). *)
Definition find_organization (db : DB) (platform : Platforms) (name : string)
    : option Organization :=
  find (fun o => Platforms_eqb (organization_platform o) platform
                 && String.eqb (organization_name o) name) (organizations db).

Definition organization_service_get_by_name (platform : Platforms) (name : string)
    : M (option Organization) :=
  query (OrgGetByName platform name)
    (fun db => Ok (find_organization db platform name)).

(** Modelled from the spec: [repository_service.get_by_org_and_name], the
    Repository unique by (organization, name). *)
Definition find_repository (db : DB) (org : nat) (name : string)
    : option Repository :=
  find (fun r => (repository_organization_id r =? org)
                 && String.eqb (repository_name r) name) (repositories db).

Definition repository_service_get_by_org_and_name (org : nat) (name : string)
    : M (option Repository) :=
  query (RepoGetByOrgAndName org name)
    (fun db => Ok (find_repository db org name)).

Definition is_member (db : DB) (uid org : nat) : bool :=
  existsb (fun m => (fst m =? uid) && (snd m =? org)) (organization_members db).

Definition subject_is_member (db : DB) (subject : Subject) (org : nat) : bool :=
  match subject with
  | Anonymous => false
  | UserSubject u => is_member db (user_id u) org
  end.

(** A tier owned directly by its organization, not inherited through one of
    the organization's repositories. *)
Definition is_direct (t : SubscriptionTier) : bool :=
  match tier_repository_id t with None => true | Some _ => false end.

(** Modelled from the spec: the scope of a search, an Organization plus an
    optional Repository, and [direct_organization] restricting the results to
    the entities owned directly by the Organization. *)
Definition in_scope (organization : option Organization)
    (repository : option Repository) (direct_organization : bool)
    (t : SubscriptionTier) : bool :=
  match organization with
  | Some o => tier_organization_id t =? organization_id o
  | None => true
  end
  && match repository with
     | Some r => option_nat_eqb (tier_repository_id t) (Some (repository_id r))
     | None => true
     end
  && (negb direct_organization || is_direct t).

Definition type_matches (type : option SubscriptionTierType)
    (ty : SubscriptionTierType) : bool :=
  match type with None => true | Some x => SubscriptionTierType_eqb x ty end.

(** Modelled from the spec: archived tiers are visible only when asked for
    and only to the members of the owning organization. *)
Definition tier_visible (db : DB) (subject : Subject) (include_archived : bool)
    (t : SubscriptionTier) : bool :=
  negb (tier_is_archived t)
  || (include_archived && subject_is_member db subject (tier_organization_id t)).

(** Modelled from the spec: [subscription_tier_service.search], every
    matching tier in identifier order, before windowing. *)
Definition tier_search_matches (db : DB) (subject : Subject)
    (type : option SubscriptionTierType) (organization : option Organization)
    (repository : option Repository) (direct_organization include_archived : bool)
    : list SubscriptionTier :=
  sort_by tier_id
    (filter (fun t => in_scope organization repository direct_organization t
                      && type_matches type (tier_type t)
                      && tier_visible db subject include_archived t)
       (subscription_tiers db)).

Definition subscription_tier_service_search (subject : Subject)
    (type : option SubscriptionTierType) (organization : option Organization)
    (repository : option Repository) (direct_organization include_archived : bool)
    (pagination : PaginationParams) : M (list SubscriptionTier * nat) :=
  query (TierSearch subject type organization repository direct_organization
           include_archived pagination)
    (fun db => let all := tier_search_matches db subject type organization
                            repository direct_organization include_archived in
               Ok (paginate pagination all, List.length all)).

(** Calendar helpers: periods are months, numbered from year 0. *)
Definition date_leb (a b : date) : bool :=
  (year a <? year b)
  || ((year a =? year b)
      && ((month a <? month b) || ((month a =? month b) && (day a <=? day b)))).

Definition valid_date (d : date) : Prop := 1 <= month d <= 12 /\ 1 <= day d <= 31.

Definition month_index (d : date) : nat := year d * 12 + (month d - 1).

Definition month_start (m : nat) : date :=
  {| year := m / 12; month := m mod 12 + 1; day := 1 |}.

Definition find_tier (db : DB) (id : nat) : option SubscriptionTier :=
  find (fun t => tier_id t =? id) (subscription_tiers db).

(** Modelled from the spec: a subscription matches the scope and the filters
    through its tier. *)
Definition subscription_in_scope (db : DB) (organization : option Organization)
    (repository : option Repository) (direct_organization : bool)
    (type : option SubscriptionTierType) (subscription_tier_id : option nat)
    (s : Subscription) : bool :=
  match find_tier db (subscribed_tier_id s) with
  | None => false
  | Some t =>
      in_scope organization repository direct_organization t
      && type_matches type (tier_type t)
      && match subscription_tier_id with
         | None => true
         | Some id => tier_id t =? id
         end
  end.

(** Modelled from the spec: the actor sees the subscriptions of the
    organizations it is a member of, and its own. *)
Definition subscription_visible (db : DB) (user : User) (s : Subscription) : bool :=
  (subscriber_id s =? user_id user)
  || match find_tier db (subscribed_tier_id s) with
     | None => false
     | Some t => is_member db (user_id user) (tier_organization_id t)
     end.

Definition active_in_month (m : nat) (s : Subscription) : bool :=
  (month_index (started_at s) <=? m)
  && match ended_at s with
     | None => true
     | Some e => m <=? month_index e
     end.

Record SubscriptionSummaryPeriod := {
  period_start_date : date;
  subscribers : nat;
  earnings : nat }.

Record SubscriptionsSummary := { periods : list SubscriptionSummaryPeriod }.

Definition tier_price (db : DB) (s : Subscription) : nat :=
  match find_tier db (subscribed_tier_id s) with
  | Some t => tier_price_amount t
  | None => 0
  end.

Definition summary_matches (db : DB) (user : User)
    (organization : option Organization) (repository : option Repository)
    (direct_organization : bool) (type : option SubscriptionTierType)
    (subscription_tier_id : option nat) (s : Subscription) : bool :=
  subscription_in_scope db organization repository direct_organization type
    subscription_tier_id s
  && subscription_visible db user s.

Definition period_summary (db : DB) (user : User)
    (organization : option Organization) (repository : option Repository)
    (direct_organization : bool) (type : option SubscriptionTierType)
    (subscription_tier_id : option nat) (m : nat) : SubscriptionSummaryPeriod :=
  let active := filter (fun s => summary_matches db user organization repository
                                   direct_organization type subscription_tier_id s
                                 && active_in_month m s) (subscriptions db) in
  {| period_start_date := month_start m;
     subscribers := List.length active;
     earnings := list_sum (map (tier_price db) active) |}.

(** Modelled from the spec: [subscription_service.get_periods_summary] rejects
    a range whose start is after its end, and otherwise returns one monthly
    period per month of [start_date, end_date]. *)
Definition subscription_service_get_periods_summary (user : User)
    (start_date end_date : date) (organization : option Organization)
    (repository : option Repository) (direct_organization : bool)
    (type : option SubscriptionTierType) (subscription_tier_id : option nat)
    : M (list SubscriptionSummaryPeriod) :=
  query (PeriodsSummary user start_date end_date organization repository
           direct_organization type subscription_tier_id)
    (fun db =>
       if date_leb start_date end_date then
         Ok (map (period_summary db user organization repository
                    direct_organization type subscription_tier_id)
                 (seq (month_index start_date)
                      (S (month_index end_date - month_index start_date))))
       else Err (RequestValidationError "start_date must be before end_date"%string)).

(** Modelled from the spec: [subscription_service.search], the visible
    matching subscriptions in identifier order (the sort keys of [sorting]
    are passed through to the query and not modelled), windowed, with the
    count before windowing. *)
Definition subscription_search_matches (db : DB) (user : User)
    (type : option SubscriptionTierType) (organization : option Organization)
    (repository : option Repository) (direct_organization : bool)
    (subscription_tier_id subscriber_user_id : option nat) : list Subscription :=
  sort_by subscription_id
    (filter (fun s => summary_matches db user organization repository
                        direct_organization type subscription_tier_id s
                      && match subscriber_user_id with
                         | None => true
                         | Some uid => subscriber_id s =? uid
                         end) (subscriptions db)).

Definition subscription_service_search (user : User)
    (type : option SubscriptionTierType) (organization : option Organization)
    (repository : option Repository) (direct_organization : bool)
    (subscription_tier_id subscriber_user_id : option nat)
    (pagination : PaginationParams) (sorting : SearchSorting)
    : M (list Subscription * nat) :=
  query (SubscriptionSearch user type organization repository direct_organization
           subscription_tier_id subscriber_user_id pagination sorting)
    (fun db => let all := subscription_search_matches db user type organization
                            repository direct_organization subscription_tier_id
                            subscriber_user_id in
               Ok (paginate pagination all, List.length all)).

(** ** Router dependencies *)

(** [posthog.client]: absent, or a client answering
    [feature_enabled(flag, distinct_id)]. *)
Definition PosthogClient := string -> string -> bool.

(** [is_feature_flag_enabled], lines 50-54. *)
Definition is_feature_flag_enabled (client : option PosthogClient) (auth : User)
    : result unit :=
  match client with
  | Some c =>
      if negb (c "subscriptions"%string (posthog_distinct_id auth))
      then Err (HTTPException 403 "You don't have access to this feature."%string)
      else Ok tt
  | None => Ok tt
  end.

(** Modelled from the spec: [UserRequiredAuth] (polar.auth.dependencies, not in
    the source tree) admits a request only when it carries a user, as
    [is_feature_flag_enabled] relies on by reading [auth.user]. *)
Definition user_required_auth (subject : Subject) : result User :=
  match subject with
  | Anonymous => Err NotAuthenticated
  | UserSubject u => Ok u
  end.

(** The [/subscriptions] router, lines 57-61: its dependency
    [is_feature_flag_enabled] runs, with its [UserRequiredAuth] parameter,
    before any endpoint of the router. *)
Definition subscriptions_router {A} (client : option PosthogClient)
    (subject : Subject) (endpoint : M A) : M A :=
  fun db =>
    match user_required_auth subject with
    | Err e => ([], Err e)
    | Ok u =>
        match is_feature_flag_enabled client u with
        | Err e => ([], Err e)
        | Ok _ => endpoint db
        end
    end.

(** ** Endpoints *)

(** [search_subscription_tiers], lines 69-109. *)
Definition search_subscription_tiers (pagination : PaginationParams)
    (organization_name : string) (repository_name : option string)
    (direct_organization include_archived : bool)
    (type : option SubscriptionTierType) (platform : Platforms) (auth : Subject)
    : M (ListResource SubscriptionTier) :=
  organization <- organization_service_get_by_name platform organization_name ;;
  match organization with
  | None => raise (ResourceNotFound "Organization not found"%string)
  | Some organization =>
      repository <- match repository_name with
                    | None => ret None
                    | Some repository_name =>
                        repository <- repository_service_get_by_org_and_name
                                        (organization_id organization) repository_name ;;
                        match repository with
                        | None => raise (ResourceNotFound "Repository not found"%string)
                        | Some repository => ret (Some repository)
                        end
                    end ;;
      res <- subscription_tier_service_search auth type (Some organization)
               repository direct_organization include_archived pagination ;;
      ret (from_paginated_results (fst res) (snd res) pagination)
  end.

(** [get_subscriptions_summary], lines 383-420. *)
Definition get_subscriptions_summary (auth : User) (organization_name : string)
    (repository_name : option string) (platform : Platforms)
    (start_date end_date : date) (direct_organization : bool)
    (type : option SubscriptionTierType) (subscription_tier_id : option nat)
    : M SubscriptionsSummary :=
  organization <- organization_service_get_by_name platform organization_name ;;
  match organization with
  | None => raise (ResourceNotFound "Organization not found"%string)
  | Some organization =>
      repository <- match repository_name with
                    | None => ret None
                    | Some repository_name =>
                        repository <- repository_service_get_by_org_and_name
                                        (organization_id organization) repository_name ;;
                        match repository with
                        | None => raise (ResourceNotFound "Repository not found"%string)
                        | Some repository => ret (Some repository)
                        end
                    end ;;
      periods <- subscription_service_get_periods_summary auth start_date end_date
                   (Some organization) repository direct_organization type
                   subscription_tier_id ;;
      ret {| periods := periods |}
  end.

(** [search_subscriptions], lines 428-478. *)
Definition search_subscriptions (auth : User) (pagination : PaginationParams)
    (sorting : SearchSorting)
    (organization_name_platform : option (string * Platforms))
    (repository_name : option string) (direct_organization : bool)
    (type : option SubscriptionTierType)
    (subscription_tier_id subscriber_user_id : option nat)
    : M (ListResource Subscription) :=
  organization <- match organization_name_platform with
                  | None => ret None
                  | Some (organization_name, platform) =>
                      organization <- organization_service_get_by_name platform
                                        organization_name ;;
                      match organization with
                      | None => raise (ResourceNotFound "Organization not found"%string)
                      | Some organization => ret (Some organization)
                      end
                  end ;;
  repository <- match repository_name with
                | None => ret None
                | Some repository_name =>
                    match organization with
                    | None =>
                        raise (BadRequest "organization_name and platform are required when repository_name is set"%string)
                    | Some organization =>
                        repository <- repository_service_get_by_org_and_name
                                        (organization_id organization) repository_name ;;
                        match repository with
                        | None => raise (ResourceNotFound "Repository not found"%string)
                        | Some repository => ret (Some repository)
                        end
                    end
                end ;;
  res <- subscription_service_search auth type organization repository
           direct_organization subscription_tier_id subscriber_user_id pagination
           sorting ;;
  ret (from_paginated_results (fst res) (snd res) pagination).

(** ** The lookup-then-act endpoints and the benefits search

    The services these endpoints call ([subscription_tier_service],
    [subscription_benefit_service]) are not in the source tree; they are
    left abstract: any monadic function of the right shape. *)

(** [ResourceNotFound()], raised without a message. *)
Definition not_found : Error := ResourceNotFound EmptyString.

Record SubscribeSessionCreate := {
  tier_id_of_session : nat;
  success_url : string;
  customer_email : option string }.

Section EntityEndpoints.

Context {SubscriptionTierUpdate SubscriptionBenefit SubscriptionBenefitUpdate
         SubscribeSession AuthMethod Authz BenefitGrants BenefitRevokes : Type}.

Variable subscription_tier_service_get_by_id :
  Subject -> nat -> M (option SubscriptionTier).
Variable subscription_tier_service_user_update :
  Authz -> SubscriptionTier -> SubscriptionTierUpdate -> User -> M SubscriptionTier.
Variable subscription_tier_service_archive :
  Authz -> SubscriptionTier -> User -> M SubscriptionTier.
Variable subscription_tier_service_update_benefits :
  Authz -> SubscriptionTier -> list nat -> User
  -> M (SubscriptionTier * BenefitGrants * BenefitRevokes).
Variable subscription_tier_service_create_subscribe_session :
  SubscriptionTier -> string -> Subject -> AuthMethod -> option string
  -> M SubscribeSession.
Variable subscription_benefit_service_get_by_id :
  Subject -> nat -> M (option SubscriptionBenefit).
Variable subscription_benefit_service_user_update :
  Authz -> SubscriptionBenefit -> SubscriptionBenefitUpdate -> User
  -> M SubscriptionBenefit.
Variable subscription_benefit_service_user_delete :
  Authz -> SubscriptionBenefit -> User -> M unit.

(** [lookup_subscription_tier], lines 117-129. *)
Definition lookup_subscription_tier (subscription_tier_id : nat) (auth : Subject)
    : M SubscriptionTier :=
  subscription_tier <- subscription_tier_service_get_by_id auth subscription_tier_id ;;
  match subscription_tier with
  | None => raise not_found
  | Some subscription_tier => ret subscription_tier
  end.

(** [update_subscription_tier], lines 150-166. *)
Definition update_subscription_tier (id : nat)
    (subscription_tier_update : SubscriptionTierUpdate) (auth : User) (authz : Authz)
    : M SubscriptionTier :=
  subscription_tier <- subscription_tier_service_get_by_id (UserSubject auth) id ;;
  match subscription_tier with
  | None => raise not_found
  | Some subscription_tier =>
      subscription_tier_service_user_update authz subscription_tier
        subscription_tier_update auth
  end.

(** [archive_subscription_tier], lines 172-187. *)
Definition archive_subscription_tier (id : nat) (auth : User) (authz : Authz)
    : M SubscriptionTier :=
  subscription_tier <- subscription_tier_service_get_by_id (UserSubject auth) id ;;
  match subscription_tier with
  | None => raise not_found
  | Some subscription_tier =>
      subscription_tier_service_archive authz subscription_tier auth
  end.

(** [update_subscription_tier_benefits], lines 193-210: the tier is the first
    component of the service's triple. *)
Definition update_subscription_tier_benefits (id : nat) (benefits_update : list nat)
    (auth : User) (authz : Authz) : M SubscriptionTier :=
  subscription_tier <- subscription_tier_service_get_by_id (UserSubject auth) id ;;
  match subscription_tier with
  | None => raise not_found
  | Some subscription_tier =>
      res <- subscription_tier_service_update_benefits authz subscription_tier
               benefits_update auth ;;
      let '(subscription_tier, _, _) := res in
      ret subscription_tier
  end.

(** [lookup_subscription_benefit], lines 267-279. *)
Definition lookup_subscription_benefit (subscription_benefit_id : nat) (auth : User)
    : M SubscriptionBenefit :=
  subscription_benefit <- subscription_benefit_service_get_by_id (UserSubject auth)
                            subscription_benefit_id ;;
  match subscription_benefit with
  | None => raise not_found
  | Some subscription_benefit => ret subscription_benefit
  end.

(** [update_subscription_benefit], lines 302-318. *)
Definition update_subscription_benefit (id : nat)
    (subscription_benefit_update : SubscriptionBenefitUpdate) (auth : User)
    (authz : Authz) : M SubscriptionBenefit :=
  subscription_benefit <- subscription_benefit_service_get_by_id (UserSubject auth) id ;;
  match subscription_benefit with
  | None => raise not_found
  | Some subscription_benefit =>
      subscription_benefit_service_user_update authz subscription_benefit
        subscription_benefit_update auth
  end.

(** [delete_subscription_benefit], lines 322-337: answers 204 with no body. *)
Definition delete_subscription_benefit (id : nat) (auth : User) (authz : Authz)
    : M unit :=
  subscription_benefit <- subscription_benefit_service_get_by_id (UserSubject auth) id ;;
  match subscription_benefit with
  | None => raise not_found
  | Some subscription_benefit =>
      _ <- subscription_benefit_service_user_delete authz subscription_benefit auth ;;
      ret tt
  end.

(** [create_subscribe_session], lines 346-365. *)
Definition create_subscribe_session (session_create : SubscribeSessionCreate)
    (auth : Subject) (auth_method : AuthMethod) : M SubscribeSession :=
  subscription_tier <- subscription_tier_service_get_by_id auth
                         (tier_id_of_session session_create) ;;
  match subscription_tier with
  | None => raise not_found
  | Some subscription_tier =>
      subscription_tier_service_create_subscribe_session subscription_tier
        (success_url session_create) auth auth_method
        (customer_email session_create)
  end.

End EntityEndpoints.

Section BenefitsSearch.

Context {SubscriptionBenefit SubscriptionBenefitType SubscriptionBenefitSchema : Type}.

Variable subscription_benefit_service_search :
  Subject -> option SubscriptionBenefitType -> Organization -> option Repository
  -> bool -> PaginationParams -> M (list SubscriptionBenefit * nat).
Variable benefit_type : SubscriptionBenefit -> SubscriptionBenefitType.
(** [subscription_benefit_schema_map[t].from_orm]: the schema of each type. *)
Variable subscription_benefit_schema_map :
  SubscriptionBenefitType -> SubscriptionBenefit -> SubscriptionBenefitSchema.

(** [search_subscription_benefits], lines 218-259. *)
Definition search_subscription_benefits (pagination : PaginationParams)
    (organization_name : string) (auth : User) (repository_name : option string)
    (direct_organization : bool) (type : option SubscriptionBenefitType)
    (platform : Platforms) : M (ListResource SubscriptionBenefitSchema) :=
  organization <- organization_service_get_by_name platform organization_name ;;
  match organization with
  | None => raise (ResourceNotFound "Organization not found"%string)
  | Some organization =>
      repository <- match repository_name with
                    | None => ret None
                    | Some repository_name =>
                        repository <- repository_service_get_by_org_and_name
                                        (organization_id organization) repository_name ;;
                        match repository with
                        | None => raise (ResourceNotFound "Repository not found"%string)
                        | Some repository => ret (Some repository)
                        end
                    end ;;
      res <- subscription_benefit_service_search (UserSubject auth) type organization
               repository direct_organization pagination ;;
      ret (from_paginated_results
             (map (fun result => subscription_benefit_schema_map (benefit_type result)
                                   result) (fst res))
             (snd res) pagination)
  end.

End BenefitsSearch.

(** ** Concrete snapshots *)

Definition acme : Organization :=
  {| organization_id := 1; organization_platform := github;
     organization_name := "acme"%string |}.

Definition acme_tier : SubscriptionTier :=
  {| tier_id := 1; tier_type := hobby; tier_price_amount := 500;
     tier_organization_id := 1; tier_repository_id := None;
     tier_is_archived := false |}.

Definition acme_archived_tier : SubscriptionTier :=
  {| tier_id := 2; tier_type := pro; tier_price_amount := 1000;
     tier_organization_id := 1; tier_repository_id := None;
     tier_is_archived := true |}.

(** "acme" on GitHub with two tiers, the second archived. *)
Definition acme_db : DB :=
  {| organizations := [acme]; repositories := [];
     subscription_tiers := [acme_tier; acme_archived_tier];
     subscriptions := []; organization_members := [] |}.

Definition alice : User := {| user_id := 7; posthog_distinct_id := "alice"%string |}.

(** A repository of "acme" holding one tier, next to a tier of "acme" itself. *)
Definition widgets : Repository :=
  {| repository_id := 10; repository_organization_id := 1;
     repository_name := "widgets"%string |}.

Definition widgets_tier : SubscriptionTier :=
  {| tier_id := 1; tier_type := hobby; tier_price_amount := 500;
     tier_organization_id := 1; tier_repository_id := Some 10;
     tier_is_archived := false |}.

Definition acme_direct_tier : SubscriptionTier :=
  {| tier_id := 2; tier_type := pro; tier_price_amount := 1000;
     tier_organization_id := 1; tier_repository_id := None;
     tier_is_archived := false |}.

Definition inherited_db : DB :=
  {| organizations := [acme]; repositories := [widgets];
     subscription_tiers := [widgets_tier; acme_direct_tier];
     subscriptions := []; organization_members := [] |}.

Definition direct_tier (id : nat) : SubscriptionTier :=
  {| tier_id := id; tier_type := hobby; tier_price_amount := 100 * id;
     tier_organization_id := 1; tier_repository_id := None;
     tier_is_archived := false |}.

(** Three live tiers owned directly by "acme". *)
Definition three_tiers_db : DB :=
  {| organizations := [acme]; repositories := [];
     subscription_tiers := [direct_tier 1; direct_tier 2; direct_tier 3];
     subscriptions := []; organization_members := [] |}.

Definition alice_subscription : Subscription :=
  {| subscription_id := 1; subscribed_tier_id := 1; subscriber_id := 7;
     started_at := {| year := 2024; month := 2; day := 15 |};
     ended_at := None |}.

(** Alice, a member of "acme", subscribed to its live tier in February 2024. *)
Definition summary_db : DB :=
  {| organizations := [acme]; repositories := [];
     subscription_tiers := [acme_tier; acme_archived_tier];
     subscriptions := [alice_subscription];
     organization_members := [(7, 1)] |}.

Definition jan_1_2024 : date := {| year := 2024; month := 1; day := 1 |}.
Definition mar_31_2024 : date := {| year := 2024; month := 3; day := 31 |}.

(** A repository named "widgets" that belongs to another organization. *)
Definition beta : Organization :=
  {| organization_id := 2; organization_platform := github;
     organization_name := "beta"%string |}.

Definition beta_widgets : Repository :=
  {| repository_id := 11; repository_organization_id := 2;
     repository_name := "widgets"%string |}.

Definition cross_org_db : DB :=
  {| organizations := [acme; beta]; repositories := [beta_widgets];
     subscription_tiers := [acme_tier]; subscriptions := [];
     organization_members := [] |}.

(** The scope a logged search or summary query ran with. *)
Definition call_scope (c : Call) : option (option Organization * option Repository) :=
  match c with
  | TierSearch _ _ o r _ _ _ => Some (o, r)
  | SubscriptionSearch _ _ o r _ _ _ _ _ => Some (o, r)
  | PeriodsSummary _ _ _ o r _ _ _ => Some (o, r)
  | _ => None
  end.

(** No query of the trace pairs an organization with a repository of
    another organization. *)
Definition scope_consistent (tr : list Call) : Prop :=
  forall c o r, In c tr -> call_scope c = Some (Some o, Some r) ->
    repository_organization_id r = organization_id o.

(** Stand-in services for running the tier, benefit and checkout endpoints on a
    snapshot: a tier lookup by id in the store, a store with no benefits, and
    a benefit search listing the tiers of the organization with their count. *)
Definition db_tier_get_by_id (_ : Subject) (id : nat) : M (option SubscriptionTier) :=
  fun db => ([], Ok (find (fun t => Nat.eqb (tier_id t) id) (subscription_tiers db))).

Definition no_benefit_get_by_id (_ : Subject) (_ : nat) : M (option unit) :=
  ret None.

Definition tier_benefit_search (_ : Subject) (_ : option SubscriptionTierType)
    (o : Organization) (_ : option Repository) (_ : bool) (_ : PaginationParams)
    : M (list SubscriptionTier * nat) :=
  fun db =>
    let l := filter (fun t => Nat.eqb (tier_organization_id t) (organization_id o))
               (subscription_tiers db) in
    ([], Ok (l, List.length l)).

Definition first_page : PaginationParams := {| page := 1; limit := 10 |}.

(** ** Lemmas on the helpers *)

Lemma insert_by_perm {A} (key : A -> nat) x l :
  Permutation (insert_by key x l) (x :: l).
Proof.
  induction l as [|y l IH]; simpl; [reflexivity|].
  destruct (key x <=? key y); [reflexivity|].
  rewrite IH. apply perm_swap.
Qed.

Lemma sort_by_perm {A} (key : A -> nat) l : Permutation (sort_by key l) l.
Proof.
  induction l as [|x l IH]; simpl; [constructor|].
  rewrite insert_by_perm. now constructor.
Qed.

Lemma find_false {A} (f : A -> bool) l :
  (forall x, In x l -> f x = false) -> find f l = None.
Proof.
  induction l as [|x l IH]; simpl; intros H; [reflexivity|].
  rewrite (H x (or_introl eq_refl)). apply IH. auto.
Qed.

Lemma find_organization_none db platform name :
  (forall o, In o (organizations db) ->
     organization_platform o <> platform \/ organization_name o <> name) ->
  find_organization db platform name = None.
Proof.
  intros H. apply find_false. intros o Ho.
  destruct (H o Ho) as [Hp|Hn].
  - destruct (organization_platform o), platform. congruence.
  - apply andb_false_intro2. now apply String.eqb_neq.
Qed.

Lemma find_repository_none db org name :
  (forall r, In r (repositories db) ->
     repository_organization_id r <> org \/ repository_name r <> name) ->
  find_repository db org name = None.
Proof.
  intros H. apply find_false. intros r Hr.
  destruct (H r Hr) as [Ho|Hn].
  - apply andb_false_intro1. now apply Nat.eqb_neq.
  - apply andb_false_intro2. now apply String.eqb_neq.
Qed.

Lemma find_repository_sound db org name r :
  find_repository db org name = Some r ->
  repository_organization_id r = org /\ repository_name r = name.
Proof.
  intros H. apply find_some in H as [_ H].
  apply andb_prop in H as [H1 H2].
  split; [now apply Nat.eqb_eq | now apply String.eqb_eq].
Qed.

(** ** Claims *)

(** C1: on the subscriptions search endpoint, a [repository_name] without an
    organization name/platform pair fails with BadRequest before any
    data-store access: the trace of queries is empty. *)
Theorem search_subscriptions_repository_needs_organization :
  forall db auth pagination sorting repository_name direct_organization type
         subscription_tier_id subscriber_user_id,
    search_subscriptions auth pagination sorting None (Some repository_name)
      direct_organization type subscription_tier_id subscriber_user_id db
    = ([], Err (BadRequest "organization_name and platform are required when repository_name is set"%string)).
Proof. intros. reflexivity. Qed.

(** C2: when no Organization matches the (platform, organization_name) pair,
    the tier search, the summary and the subscriptions search fail with
    NotFound right after the organization lookup, which is the only query
    they issue: neither the search nor the summary service is called. *)
Theorem organization_not_found_stops_handlers :
  forall db platform name,
    (forall o, In o (organizations db) ->
       organization_platform o <> platform \/ organization_name o <> name) ->
    (forall pagination repository_name direct_organization include_archived type auth,
       search_subscription_tiers pagination name repository_name
         direct_organization include_archived type platform auth db
       = ([OrgGetByName platform name],
          Err (ResourceNotFound "Organization not found"%string)))
    /\ (forall auth repository_name start_date end_date direct_organization type
               subscription_tier_id,
          get_subscriptions_summary auth name repository_name platform
            start_date end_date direct_organization type subscription_tier_id db
          = ([OrgGetByName platform name],
             Err (ResourceNotFound "Organization not found"%string)))
    /\ (forall auth pagination sorting repository_name direct_organization type
               subscription_tier_id subscriber_user_id,
          search_subscriptions auth pagination sorting
            (Some (name, platform)) repository_name direct_organization
            type subscription_tier_id subscriber_user_id db
          = ([OrgGetByName platform name],
             Err (ResourceNotFound "Organization not found"%string))).
Proof.
  intros db platform name Hnone.
  apply find_organization_none in Hnone.
  repeat split; intros;
    unfold search_subscription_tiers, get_subscriptions_summary,
      search_subscriptions, organization_service_get_by_name, bind, query;
    rewrite Hnone; reflexivity.
Qed.

Lemma organization_not_found_stops_handlers_witness :
  (forall o, In o (organizations acme_db) ->
     organization_platform o <> github \/ organization_name o <> "nobody"%string)
  /\ search_subscription_tiers {| page := 1; limit := 10 |} "nobody"%string None
       true false None github Anonymous acme_db
     = ([OrgGetByName github "nobody"%string],
        Err (ResourceNotFound "Organization not found"%string)).
Proof.
  assert (H : forall o, In o (organizations acme_db) ->
     organization_platform o <> github \/ organization_name o <> "nobody"%string).
  { intros o [<-|[]]. right. simpl. discriminate. }
  split; [exact H|].
  exact (proj1 (organization_not_found_stops_handlers acme_db github "nobody"%string H)
           {| page := 1; limit := 10 |} None true false None Anonymous).
Defined.

(** C9: the feature-flag gate fails, with a 403, exactly when a client is
    configured and reports the "subscriptions" flag disabled for the user;
    it raises nothing else, and without a client every authenticated
    request passes the gate and reaches the endpoint. *)
Theorem is_feature_flag_enabled_gate :
  forall client (auth : User),
    (is_feature_flag_enabled client auth
       = Err (HTTPException 403 "You don't have access to this feature."%string)
     <-> exists c, client = Some c
                   /\ c "subscriptions"%string (posthog_distinct_id auth) = false)
    /\ (is_feature_flag_enabled client auth = Ok tt
        \/ is_feature_flag_enabled client auth
           = Err (HTTPException 403 "You don't have access to this feature."%string))
    /\ (client = None ->
        is_feature_flag_enabled client auth = Ok tt
        /\ forall A (endpoint : M A) db,
             subscriptions_router client (UserSubject auth) endpoint db = endpoint db).
Proof.
  intros [c|] auth; unfold is_feature_flag_enabled.
  - destruct (c "subscriptions"%string (posthog_distinct_id auth)) eqn:E; simpl.
    + repeat split; try discriminate; auto.
      intros [c' [Hc Hf]]. inversion Hc; subst. congruence.
    + repeat split; eauto; discriminate.
  - repeat split; auto.
    + discriminate.
    + intros [c' [Hc _]]. discriminate.
Qed.

Lemma is_feature_flag_enabled_gate_witness :
  is_feature_flag_enabled None alice = Ok tt
  /\ subscriptions_router None (UserSubject alice) (ret 0) acme_db = ([], Ok 0).
Proof.
  destruct (proj2 (proj2 (is_feature_flag_enabled_gate None alice)) eq_refl)
    as [H1 H2].
  split; [exact H1 | exact (H2 nat (ret 0) acme_db)].
Defined.

(** C10: with neither an organization name/platform pair nor a repository
    name, the subscriptions search does not fail: it issues exactly one
    query, the search with no organization and no repository. *)
Theorem search_subscriptions_unscoped :
  forall db auth pagination sorting direct_organization type
         subscription_tier_id subscriber_user_id,
    search_subscriptions auth pagination sorting None None direct_organization
      type subscription_tier_id subscriber_user_id db
    = ([SubscriptionSearch auth type None None direct_organization
          subscription_tier_id subscriber_user_id pagination sorting],
       Ok (let all := subscription_search_matches db auth type None None
                        direct_organization subscription_tier_id subscriber_user_id in
           from_paginated_results (paginate pagination all) (List.length all)
             pagination)).
Proof. intros. reflexivity. Qed.

Ltac unfold_handlers :=
  unfold search_subscription_tiers, get_subscriptions_summary, search_subscriptions,
    organization_service_get_by_name, repository_service_get_by_org_and_name,
    subscription_tier_service_search, subscription_service_get_periods_summary,
    subscription_service_search, bind, ret, raise, query.

Ltac destruct_date_check :=
  match goal with |- context [date_leb ?a ?b] => destruct (date_leb a b) end.

Ltac trace_scope Er :=
  let c := fresh "c" in let o := fresh "o" in let r := fresh "r" in
  let Hin := fresh "Hin" in let Hs := fresh "Hs" in
  try destruct_date_check;
  intros c o r Hin Hs; simpl in Hin;
  repeat destruct Hin as [Hin|Hin]; subst; simpl in Hs;
  try discriminate; try contradiction;
  injection Hs as <- <-; apply find_repository_sound in Er; tauto.

Ltac no_scope :=
  let Hin := fresh "Hin" in let Hs := fresh "Hs" in
  try destruct_date_check;
  intros ? ? ? Hin Hs; simpl in Hin;
  repeat destruct Hin as [Hin|Hin]; subst; simpl in Hs;
  try discriminate; contradiction.

(** C3: a repository found by the lookup belongs to the organization it was
    looked up in, so every search or summary query the handlers issue with a
    repository pairs it with its own organization; and when the resolved
    organization has no repository of the given name (a repository of that
    name in another organization included), the handlers fail with NotFound
    after the two lookups. *)
Theorem repository_lookup_scoped_to_organization :
  (forall db org name r,
     find_repository db org name = Some r -> repository_organization_id r = org)
  /\ (forall db pagination organization_name repository_name direct_organization
             include_archived type platform auth,
        scope_consistent (fst (search_subscription_tiers pagination organization_name
          repository_name direct_organization include_archived type platform auth db)))
  /\ (forall db auth organization_name repository_name platform start_date end_date
             direct_organization type subscription_tier_id,
        scope_consistent (fst (get_subscriptions_summary auth organization_name
          repository_name platform start_date end_date direct_organization type
          subscription_tier_id db)))
  /\ (forall db auth pagination sorting organization_name_platform repository_name
             direct_organization type subscription_tier_id subscriber_user_id,
        scope_consistent (fst (search_subscriptions auth pagination sorting
          organization_name_platform repository_name direct_organization type
          subscription_tier_id subscriber_user_id db)))
  /\ (forall db platform name o rname,
        find_organization db platform name = Some o ->
        (forall r, In r (repositories db) ->
           repository_organization_id r <> organization_id o
           \/ repository_name r <> rname) ->
        (forall pagination direct_organization include_archived type auth,
           search_subscription_tiers pagination name (Some rname)
             direct_organization include_archived type platform auth db
           = ([OrgGetByName platform name;
               RepoGetByOrgAndName (organization_id o) rname],
              Err (ResourceNotFound "Repository not found"%string)))
        /\ (forall auth start_date end_date direct_organization type subscription_tier_id,
              get_subscriptions_summary auth name (Some rname) platform
                start_date end_date direct_organization type subscription_tier_id db
              = ([OrgGetByName platform name;
                  RepoGetByOrgAndName (organization_id o) rname],
                 Err (ResourceNotFound "Repository not found"%string)))
        /\ (forall auth pagination sorting direct_organization type
                   subscription_tier_id subscriber_user_id,
              search_subscriptions auth pagination sorting (Some (name, platform))
                (Some rname) direct_organization type subscription_tier_id
                subscriber_user_id db
              = ([OrgGetByName platform name;
                  RepoGetByOrgAndName (organization_id o) rname],
                 Err (ResourceNotFound "Repository not found"%string)))).
Proof.
  split; [|split; [|split; [|split]]].
  - intros db org name r H. now apply find_repository_sound in H.
  - intros db pg on rn dir incl ty platform auth. unfold_handlers.
    destruct (find_organization db platform on) as [o|] eqn:Eo;
      [|no_scope].
    destruct rn as [rn|].
    + destruct (find_repository db (organization_id o) rn) as [r|] eqn:Er.
      * trace_scope Er.
      * no_scope.
    + no_scope.
  - intros db auth on rn platform sd ed dir ty tid. unfold_handlers.
    destruct (find_organization db platform on) as [o|] eqn:Eo;
      [|no_scope].
    destruct rn as [rn|].
    + destruct (find_repository db (organization_id o) rn) as [r|] eqn:Er.
      * trace_scope Er.
      * no_scope.
    + no_scope.
  - intros db auth pg sorting onp rn dir ty tid sid. unfold_handlers.
    destruct onp as [[name platform]|].
    + destruct (find_organization db platform name) as [o|] eqn:Eo;
        [|no_scope].
      destruct rn as [rn|].
      * destruct (find_repository db (organization_id o) rn) as [r|] eqn:Er.
        -- trace_scope Er.
        -- no_scope.
      * no_scope.
    + destruct rn as [rn|].
      * no_scope.
      * no_scope.
  - intros db platform name o rn Eo Hr.
    apply find_repository_none in Hr.
    repeat split; intros; unfold_handlers; rewrite Eo; simpl; rewrite Hr;
      reflexivity.
Qed.

Lemma repository_lookup_scoped_to_organization_witness :
  search_subscription_tiers {| page := 1; limit := 10 |} "acme"%string
    (Some "widgets"%string) true false None github Anonymous cross_org_db
  = ([OrgGetByName github "acme"%string; RepoGetByOrgAndName 1 "widgets"%string],
     Err (ResourceNotFound "Repository not found"%string)).
Proof.
  assert (Hr : forall r, In r (repositories cross_org_db) ->
            repository_organization_id r <> organization_id acme
            \/ repository_name r <> "widgets"%string).
  { intros r [<-|[]]. left. simpl. discriminate. }
  destruct (proj2 (proj2 (proj2 (proj2 repository_lookup_scoped_to_organization)))
              cross_org_db github "acme"%string acme "widgets"%string eq_refl Hr)
    as [H _].
  exact (H {| page := 1; limit := 10 |} true false None Anonymous).
Defined.

(** C4 (as stated, refuted): a summary call with [start_date] after
    [end_date] does not always fail with a validation error; the
    organization is resolved first, and an unknown organization gives
    NotFound. *)
Lemma summary_reversed_range_unknown_organization :
  date_leb mar_31_2024 jan_1_2024 = false
  /\ snd (get_subscriptions_summary alice "nobody"%string None github
            mar_31_2024 jan_1_2024 true None None acme_db)
     = Err (ResourceNotFound "Organization not found"%string).
Proof. split; reflexivity. Qed.

(** C4 (amended): with [start_date] after [end_date] the summary call never
    returns periods; once the organization, and the repository when one is
    named, are resolved it fails with a validation error. *)
Theorem summary_rejects_reversed_range :
  forall db auth name rn platform start_date end_date direct_organization type
         subscription_tier_id,
    date_leb start_date end_date = false ->
    (forall s, snd (get_subscriptions_summary auth name rn platform start_date
                      end_date direct_organization type subscription_tier_id db)
               <> Ok s)
    /\ (forall o, find_organization db platform name = Some o ->
          match rn with
          | None => True
          | Some n => find_repository db (organization_id o) n <> None
          end ->
          exists message,
            snd (get_subscriptions_summary auth name rn platform start_date
                   end_date direct_organization type subscription_tier_id db)
            = Err (RequestValidationError message)).
Proof.
  intros db auth name rn platform sd ed dir ty tid Hd. unfold_handlers.
  split.
  - intros s. destruct (find_organization db platform name) as [o|];
      [|discriminate].
    destruct rn as [n|].
    + destruct (find_repository db (organization_id o) n); simpl;
        [rewrite Hd|]; discriminate.
    + simpl. rewrite Hd. discriminate.
  - intros o Eo Hr. rewrite Eo. destruct rn as [n|].
    + destruct (find_repository db (organization_id o) n); [|congruence].
      simpl. rewrite Hd. eexists. reflexivity.
    + simpl. rewrite Hd. eexists. reflexivity.
Qed.

Lemma summary_rejects_reversed_range_witness :
  exists message,
    snd (get_subscriptions_summary alice "acme"%string None github
           mar_31_2024 jan_1_2024 true None None summary_db)
    = Err (RequestValidationError message).
Proof.
  exact (proj2 (summary_rejects_reversed_range summary_db alice "acme"%string None
                  github mar_31_2024 jan_1_2024 true None None eq_refl)
           acme eq_refl I).
Defined.

(** C5 (as stated, refuted): the router-wide feature-flag dependency takes a
    [UserRequiredAuth], so an unauthenticated tier search on "acme" is
    rejected before the handler runs. *)
Lemma acme_search_unauthenticated_rejected :
  subscriptions_router None Anonymous
    (search_subscription_tiers {| page := 1; limit := 10 |} "acme"%string None
       true false None github Anonymous) acme_db
  = ([], Err NotAuthenticated).
Proof. reflexivity. Qed.

(** C5 (amended): every unauthenticated request is rejected by the router;
    for an authenticated user who passes the feature-flag gate, the tier
    search on "acme" with no type filter and the default
    [include_archived = false] returns only the live tier, with count 1. *)
Theorem acme_search_authenticated :
  (forall client pagination auth,
     subscriptions_router client Anonymous
       (search_subscription_tiers pagination "acme"%string None true false None
          github auth) acme_db
     = ([], Err NotAuthenticated))
  /\ (forall client (user : User) pagination,
        is_feature_flag_enabled client user = Ok tt ->
        page pagination = 1 -> 1 <= limit pagination ->
        snd (subscriptions_router client (UserSubject user)
               (search_subscription_tiers pagination "acme"%string None true false
                  None github (UserSubject user)) acme_db)
        = Ok (from_paginated_results [acme_tier] 1 pagination)).
Proof.
  split.
  - intros. reflexivity.
  - intros client user [pg l] Hgate Hp Hl. simpl in Hp, Hl. subst pg.
    unfold subscriptions_router. simpl. rewrite Hgate.
    destruct l as [|[|l]]; [lia| |]; reflexivity.
Qed.

Lemma acme_search_authenticated_witness :
  snd (subscriptions_router None (UserSubject alice)
         (search_subscription_tiers {| page := 1; limit := 10 |} "acme"%string None
            true false None github (UserSubject alice)) acme_db)
  = Ok (from_paginated_results [acme_tier] 1 {| page := 1; limit := 10 |}).
Proof.
  apply (proj2 acme_search_authenticated); [reflexivity | reflexivity | simpl; lia].
Defined.

(** Shape of a successful tier search: the organization is found, the
    repository (if any) is resolved independently of the search filters, and
    the result is the window of the full match list with its length. *)
Lemma search_subscription_tiers_ok :
  forall db pagination name rn direct_organization include_archived type platform
         auth tr res,
    search_subscription_tiers pagination name rn direct_organization
      include_archived type platform auth db = (tr, Ok res) ->
    exists o repository,
      find_organization db platform name = Some o
      /\ (forall pagination' direct' include' type' auth',
            snd (search_subscription_tiers pagination' name rn direct' include'
                   type' platform auth' db)
            = Ok (let all := tier_search_matches db auth' type' (Some o) repository
                               direct' include' in
                  from_paginated_results (paginate pagination' all)
                    (List.length all) pagination'))
      /\ res = (let all := tier_search_matches db auth type (Some o) repository
                             direct_organization include_archived in
                from_paginated_results (paginate pagination all) (List.length all)
                  pagination).
Proof.
  intros db pg name rn dir incl ty platform auth tr res H. revert H.
  unfold_handlers.
  destruct (find_organization db platform name) as [o|] eqn:Eo;
    [|discriminate].
  destruct rn as [n|].
  - destruct (find_repository db (organization_id o) n) as [r|] eqn:Er;
      simpl; intros H; inversion H; subst.
    exists o, (Some r). repeat split; auto.
  - simpl. intros H; inversion H; subst.
    exists o, None. repeat split; auto.
Qed.

Lemma In_paginate {A} (p : PaginationParams) (l : list A) x :
  In x (paginate p l) -> In x l.
Proof.
  unfold paginate. intros H.
  rewrite <- (firstn_skipn ((page p - 1) * limit p) l).
  apply in_or_app. right.
  rewrite <- (firstn_skipn (limit p) (skipn ((page p - 1) * limit p) l)).
  apply in_or_app. now left.
Qed.

Lemma filter_length_mono {A} (f g : A -> bool) l :
  (forall x, f x = true -> g x = true) ->
  List.length (filter f l) <= List.length (filter g l).
Proof.
  intros Hfg. induction l as [|x l IH]; simpl; [lia|].
  destruct (f x) eqn:Ef.
  - rewrite (Hfg x Ef). simpl. lia.
  - destruct (g x); simpl; lia.
Qed.

Lemma in_scope_direct organization repository t :
  in_scope organization repository true t = true ->
  is_direct t = true /\ in_scope organization repository false t = true.
Proof.
  unfold in_scope. intros H.
  apply andb_prop in H as [H1 H2]. simpl in H2.
  rewrite H1. split; auto.
Qed.

(** C6 (as stated, refuted): with the same window (page 1 of size 1), the
    page for [direct_organization = true] holds the direct tier while the
    page for [false] holds the repository tier, so the first page is not
    within the second. *)
Lemma direct_page_not_within_inherited_page :
  snd (search_subscription_tiers {| page := 1; limit := 1 |} "acme"%string None
         true false None github Anonymous inherited_db)
  = Ok (from_paginated_results [acme_direct_tier] 1 {| page := 1; limit := 1 |})
  /\ snd (search_subscription_tiers {| page := 1; limit := 1 |} "acme"%string None
            false false None github Anonymous inherited_db)
     = Ok (from_paginated_results [widgets_tier] 2 {| page := 1; limit := 1 |})
  /\ ~ incl [acme_direct_tier] [widgets_tier].
Proof.
  split; [reflexivity|split; [reflexivity|]].
  intros H. destruct (H acme_direct_tier (or_introl eq_refl)) as [E|[]].
  discriminate.
Qed.

(** C6 (amended): for a fixed scope and filters, every match of a
    [direct_organization = true] search is owned directly by the
    organization, the matches before windowing are among those of the
    [false] search and their count is no larger; every page a
    [direct_organization = true] tier search returns holds direct tiers
    only. *)
Theorem direct_organization_restricts_matches :
  (forall db auth type organization repository include_archived,
     let direct := tier_search_matches db auth type organization repository true
                     include_archived in
     let inherited := tier_search_matches db auth type organization repository
                        false include_archived in
     (forall t, In t direct -> is_direct t = true)
     /\ incl direct inherited
     /\ List.length direct <= List.length inherited)
  /\ (forall db pagination name rn include_archived type platform auth tr res,
        search_subscription_tiers pagination name rn true include_archived type
          platform auth db = (tr, Ok res) ->
        forall t, In t (items res) -> is_direct t = true).
Proof.
  assert (Hdirect : forall db auth type organization repository include_archived t,
    In t (tier_search_matches db auth type organization repository true
            include_archived) ->
    is_direct t = true
    /\ In t (tier_search_matches db auth type organization repository false
               include_archived)).
  { intros db auth ty o r incl t H. unfold tier_search_matches in *.
    apply (Permutation_in _ (sort_by_perm _ _)) in H.
    apply filter_In in H as [Hin Hf].
    apply andb_prop in Hf as [Hf Hv]. apply andb_prop in Hf as [Hs Ht].
    apply in_scope_direct in Hs as [Hd Hs].
    split; [exact Hd|].
    apply (Permutation_in _ (Permutation_sym (sort_by_perm _ _))).
    apply filter_In. split; [exact Hin|]. now rewrite Hs, Ht, Hv. }
  split.
  - intros db auth ty o r incl direct inherited.
    split; [|split].
    + intros t Ht. exact (proj1 (Hdirect _ _ _ _ _ _ _ Ht)).
    + intros t Ht. exact (proj2 (Hdirect _ _ _ _ _ _ _ Ht)).
    + unfold direct, inherited, tier_search_matches.
      rewrite (Permutation_length (sort_by_perm _ _)).
      rewrite (Permutation_length (sort_by_perm _ _)).
      apply filter_length_mono. intros t Hf.
      apply andb_prop in Hf as [Hf Hv]. apply andb_prop in Hf as [Hs Ht].
      apply in_scope_direct in Hs as [_ Hs]. now rewrite Hs, Ht, Hv.
  - intros db pg name rn incl ty platform auth tr res H t Ht.
    apply search_subscription_tiers_ok in H as (o & r & _ & _ & ->).
    simpl in Ht. apply In_paginate in Ht.
    exact (proj1 (Hdirect _ _ _ _ _ _ _ Ht)).
Qed.

Lemma direct_organization_restricts_matches_witness :
  Forall (fun t => is_direct t = true)
    (items (from_paginated_results [acme_direct_tier] 1 {| page := 1; limit := 1 |})).
Proof.
  apply Forall_forall.
  exact ((proj2 direct_organization_restricts_matches) inherited_db
           {| page := 1; limit := 1 |} "acme"%string None false None github
           Anonymous _ _ eq_refl).
Defined.

Lemma firstn_add_split {A} a b (l : list A) :
  firstn (a + b) l = firstn a l ++ firstn b (skipn a l).
Proof.
  revert l. induction a as [|a IH]; intros l; [reflexivity|].
  destruct l as [|x l]; simpl.
  - now rewrite firstn_nil.
  - now rewrite IH.
Qed.

Lemma paginate_consecutive {A} n lim (l : list A) :
  1 <= n ->
  paginate {| page := n; limit := lim |} l
  ++ paginate {| page := S n; limit := lim |} l
  = firstn (lim + lim) (skipn ((n - 1) * lim) l).
Proof.
  intros Hn. unfold paginate. simpl page. simpl limit.
  replace (S n - 1) with (S (n - 1)) by lia.
  rewrite firstn_add_split, skipn_skipn.
  reflexivity.
Qed.

Lemma paginate_all_pages {A} lim (l : list A) K :
  List.concat (map (fun k => paginate {| page := k; limit := lim |} l) (seq 1 K))
  = firstn (K * lim) l.
Proof.
  induction K as [|K IH]; [reflexivity|].
  rewrite seq_S, map_app, concat_app, IH. simpl List.concat.
  rewrite app_nil_r. unfold paginate. simpl page. simpl limit.
  replace (S K - 1) with K by lia.
  rewrite <- firstn_add_split. f_equal. lia.
Qed.

Lemma NoDup_window {A} n m (l : list A) :
  NoDup l -> NoDup (firstn n (skipn m l)).
Proof.
  intros H.
  rewrite <- (firstn_skipn m l) in H. apply NoDup_app_remove_l in H.
  rewrite <- (firstn_skipn n (skipn m l)) in H. now apply NoDup_app_remove_r in H.
Qed.

Lemma NoDup_app_disjoint {A} (l1 l2 : list A) x :
  NoDup (l1 ++ l2) -> In x l1 -> ~ In x l2.
Proof.
  induction l1 as [|y l1 IH]; simpl; [tauto|].
  intros Hnd [<-|Hin] Hin2; inversion Hnd as [|? ? Hnot Hnd']; subst.
  - apply Hnot. apply in_or_app. now right.
  - exact (IH Hnd' Hin Hin2).
Qed.

Lemma tier_search_matches_NoDup db auth type organization repository
    direct_organization include_archived :
  NoDup (subscription_tiers db) ->
  NoDup (tier_search_matches db auth type organization repository
           direct_organization include_archived).
Proof.
  intros H. unfold tier_search_matches.
  apply (Permutation_NoDup (Permutation_sym (sort_by_perm _ _))).
  now apply NoDup_filter.
Qed.

(** C7 (as stated, refuted): with three matching tiers and pages of one
    tier, pages 1 and 2 together are not the unpaginated fetch, which also
    holds the third tier. *)
Lemma two_pages_not_unpaginated_fetch :
  snd (search_subscription_tiers {| page := 1; limit := 1 |} "acme"%string None
         true false None github Anonymous three_tiers_db)
  = Ok (from_paginated_results [direct_tier 1] 3 {| page := 1; limit := 1 |})
  /\ snd (search_subscription_tiers {| page := 2; limit := 1 |} "acme"%string None
            true false None github Anonymous three_tiers_db)
     = Ok (from_paginated_results [direct_tier 2] 3 {| page := 2; limit := 1 |})
  /\ snd (search_subscription_tiers {| page := 1; limit := 3 |} "acme"%string None
            true false None github Anonymous three_tiers_db)
     = Ok (from_paginated_results [direct_tier 1; direct_tier 2; direct_tier 3] 3
             {| page := 1; limit := 3 |})
  /\ [direct_tier 1] ++ [direct_tier 2]
     <> [direct_tier 1; direct_tier 2; direct_tier 3].
Proof. repeat split; [reflexivity..|discriminate]. Qed.

(** C7 (amended): the count of every page is the number of matches before
    windowing; pages N and N+1 are disjoint and, in order, make up the
    slice of the unpaginated fetch that spans both; the unpaginated fetch
    (page 1 as large as the count) is the in-order concatenation of all
    pages. *)
Theorem tier_search_pagination :
  forall db name rn direct_organization include_archived type platform auth
         n lim tr1 res1 tr2 res2,
    NoDup (subscription_tiers db) -> 1 <= n ->
    search_subscription_tiers {| page := n; limit := lim |} name rn
      direct_organization include_archived type platform auth db = (tr1, Ok res1) ->
    search_subscription_tiers {| page := S n; limit := lim |} name rn
      direct_organization include_archived type platform auth db = (tr2, Ok res2) ->
    exists all,
      total_count (pagination res1) = List.length all
      /\ total_count (pagination res2) = List.length all
      /\ (forall t, In t (items res1) -> ~ In t (items res2))
      /\ items res1 ++ items res2 = firstn (lim + lim) (skipn ((n - 1) * lim) all)
      /\ snd (search_subscription_tiers
                {| page := 1; limit := List.length all |} name rn
                direct_organization include_archived type platform auth db)
         = Ok (from_paginated_results all (List.length all)
                 {| page := 1; limit := List.length all |})
      /\ (forall k, snd (search_subscription_tiers {| page := k; limit := lim |}
                           name rn direct_organization include_archived type
                           platform auth db)
                    = Ok (from_paginated_results
                            (paginate {| page := k; limit := lim |} all)
                            (List.length all) {| page := k; limit := lim |}))
      /\ (forall K, List.length all <= K * lim ->
            List.concat (map (fun k => paginate {| page := k; limit := lim |} all)
                      (seq 1 K)) = all).
Proof.
  intros db name rn dir incl ty platform auth n lim tr1 res1 tr2 res2
    Hnd Hn H1 H2.
  apply search_subscription_tiers_ok in H1 as (o & r & _ & Hall & ->).
  pose proof (Hall {| page := S n; limit := lim |} dir incl ty auth) as H2'.
  rewrite H2 in H2'. simpl in H2'. injection H2' as ->.
  set (all := tier_search_matches db auth ty (Some o) r dir incl).
  assert (Hall_nd : NoDup all) by now apply tier_search_matches_NoDup.
  exists all. simpl.
  repeat split.
  - intros t Ht1 Ht2.
    assert (Hw : NoDup (paginate {| page := n; limit := lim |} all
                        ++ paginate {| page := S n; limit := lim |} all)).
    { rewrite paginate_consecutive by exact Hn. now apply NoDup_window. }
    exact (NoDup_app_disjoint _ _ _ Hw Ht1 Ht2).
  - now apply paginate_consecutive.
  - rewrite (Hall {| page := 1; limit := List.length all |} dir incl ty auth).
    simpl. unfold paginate. simpl. now rewrite firstn_all.
  - intros k. exact (Hall {| page := k; limit := lim |} dir incl ty auth).
  - intros K HK. rewrite paginate_all_pages. now apply firstn_all2.
Qed.

Lemma tier_search_pagination_witness :
  exists all,
    List.length all = 3
    /\ items (from_paginated_results [direct_tier 1] 3 {| page := 1; limit := 1 |})
       ++ items (from_paginated_results [direct_tier 2] 3 {| page := 2; limit := 1 |})
       = firstn 2 (skipn 0 all).
Proof.
  destruct (tier_search_pagination three_tiers_db "acme"%string None true false None
              github Anonymous 1 1 _ _ _ _
              ltac:(repeat constructor; simpl; intuition discriminate)
              ltac:(lia) eq_refl eq_refl)
    as (all & Hc & _ & _ & Hw & _).
  exists all. simpl in Hc. split; [exact (eq_sym Hc)|exact Hw].
Defined.

Lemma month_index_month_start m : month_index (month_start m) = m.
Proof.
  unfold month_index, month_start. cbn [year month].
  pose proof (Nat.div_mod_eq m 12). lia.
Qed.

Lemma date_leb_month_index a b :
  valid_date a -> date_leb a b = true -> month_index a <= month_index b.
Proof.
  unfold valid_date, date_leb, month_index. intros [Ha _] H.
  repeat match goal with
         | H : (_ || _) = true |- _ => apply orb_prop in H as [H|H]
         | H : (_ && _) = true |- _ => apply andb_prop in H as [H ?]
         end;
    repeat match goal with
           | H : (_ <? _) = true |- _ => apply Nat.ltb_lt in H
           | H : (_ =? _) = true |- _ => apply Nat.eqb_eq in H
           | H : (_ <=? _) = true |- _ => apply Nat.leb_le in H
           end; nia.
Qed.

Lemma filter_all_false {A} (f : A -> bool) l :
  (forall x, In x l -> f x = false) -> filter f l = [].
Proof.
  induction l as [|x l IH]; simpl; intros H; [reflexivity|].
  rewrite (H x (or_introl eq_refl)). apply IH. auto.
Qed.

(** C8: a valid date range yields one period per month of
    [start_date, end_date], in order and without gaps, from the month of
    [start_date] to the month of [end_date]; a period in which no
    subscription matching the request's own scope (the organization and the
    repository the handler resolved, and the request's filters) is active is
    kept, with zero subscribers and zero earnings. *)
Theorem summary_periods_cover_range :
  forall db auth name rn platform start_date end_date direct_organization type
         subscription_tier_id tr s,
    valid_date start_date -> valid_date end_date ->
    get_subscriptions_summary auth name rn platform start_date end_date
      direct_organization type subscription_tier_id db = (tr, Ok s) ->
    month_index start_date <= month_index end_date
    /\ List.length (periods s)
       = S (month_index end_date - month_index start_date)
    /\ map (fun p => month_index (period_start_date p)) (periods s)
       = seq (month_index start_date)
             (S (month_index end_date - month_index start_date))
    /\ exists o,
         find_organization db platform name = Some o
         /\ forall p, In p (periods s) ->
              (forall sub, In sub (subscriptions db) ->
                 summary_matches db auth (Some o)
                   (match rn with
                    | None => None
                    | Some n => find_repository db (organization_id o) n
                    end) direct_organization type subscription_tier_id sub = true ->
                 active_in_month (month_index (period_start_date p)) sub = false) ->
              subscribers p = 0 /\ earnings p = 0.
Proof.
  intros db auth name rn platform sd ed dir ty tid tr s Hsd Hed H.
  assert (Hshape : exists o repository,
            find_organization db platform name = Some o
            /\ repository = match rn with
                            | None => None
                            | Some n => find_repository db (organization_id o) n
                            end
            /\ date_leb sd ed = true
            /\ s = {| periods := map (period_summary db auth (Some o) repository
                                        dir ty tid)
                                   (seq (month_index sd)
                                      (S (month_index ed - month_index sd))) |}).
  { revert H. unfold_handlers.
    destruct (find_organization db platform name) as [o|] eqn:Eo;
      [|discriminate].
    destruct rn as [n|].
    - destruct (find_repository db (organization_id o) n) as [r|] eqn:Er;
        simpl; [|discriminate].
      destruct (date_leb sd ed) eqn:Ed; simpl; intros H; inversion H.
      exists o, (Some r). auto.
    - simpl. destruct (date_leb sd ed) eqn:Ed; simpl; intros H; inversion H.
      exists o, None. auto. }
  destruct Hshape as (o & r & Eo & Er & Hd & ->). cbn [periods].
  apply date_leb_month_index in Hd; [|exact Hsd].
  split; [exact Hd|]. split; [|split].
  - now rewrite length_map, length_seq.
  - rewrite map_map. erewrite map_ext; [apply map_id|].
    intros m. apply month_index_month_start.
  - exists o. split; [exact Eo|]. rewrite <- Er.
    intros p Hp Hnone. apply in_map_iff in Hp as (m & <- & _).
    unfold period_summary in *. cbn [period_start_date subscribers earnings] in *.
    rewrite month_index_month_start in Hnone.
    rewrite filter_all_false; [split; reflexivity|].
    intros sub Hsub. destruct (summary_matches _ _ _ _ _ _ _ sub) eqn:Em;
      [|reflexivity].
    simpl. exact (Hnone sub Hsub Em).
Qed.

Lemma summary_periods_cover_range_witness :
  List.length
    (periods {| periods := map (period_summary summary_db alice (Some acme) None
                                  true None None)
                             (seq (month_index jan_1_2024) 3) |}) = 3.
Proof.
  destruct (summary_periods_cover_range summary_db alice "acme"%string None github
              jan_1_2024 mar_31_2024 true None None _ _
              ltac:(unfold valid_date; simpl; lia)
              ltac:(unfold valid_date; simpl; lia) eq_refl)
    as (_ & Hlen & _).
  exact Hlen.
Defined.

(** ** Further properties of the endpoints *)

(** The tier search issues its queries in a fixed order: the organization
    lookup, the repository lookup only when a repository name is given, and
    then a single tier search carrying the request's filters unchanged, only
    when both lookups succeeded. *)
Theorem search_subscription_tiers_trace :
  forall db pagination name rn direct_organization include_archived type platform
         auth,
    let run := search_subscription_tiers pagination name rn direct_organization
                 include_archived type platform auth db in
    match find_organization db platform name with
    | None => run = ([OrgGetByName platform name],
                     Err (ResourceNotFound "Organization not found"%string))
    | Some o =>
        match rn with
        | None =>
            fst run = [OrgGetByName platform name;
                       TierSearch auth type (Some o) None direct_organization
                         include_archived pagination]
            /\ exists res, snd run = Ok res
        | Some n =>
            match find_repository db (organization_id o) n with
            | None => run = ([OrgGetByName platform name;
                              RepoGetByOrgAndName (organization_id o) n],
                             Err (ResourceNotFound "Repository not found"%string))
            | Some r =>
                fst run = [OrgGetByName platform name;
                           RepoGetByOrgAndName (organization_id o) n;
                           TierSearch auth type (Some o) (Some r) direct_organization
                             include_archived pagination]
                /\ exists res, snd run = Ok res
            end
        end
    end.
Proof.
  intros. subst run. unfold_handlers.
  destruct (find_organization db platform name) as [o|]; [|reflexivity].
  destruct rn as [n|]; simpl.
  - destruct (find_repository db (organization_id o) n); simpl; eauto.
  - eauto.
Qed.

(** The summary issues the organization lookup, the repository lookup only
    when a repository name is given, and then one summary query with the
    request's dates and filters; the handler returns the service's periods
    unchanged, or its error. *)
Theorem get_subscriptions_summary_trace :
  forall db auth name rn platform start_date end_date direct_organization type
         subscription_tier_id,
    let run := get_subscriptions_summary auth name rn platform start_date end_date
                 direct_organization type subscription_tier_id db in
    let summary o r :=
      ([PeriodsSummary auth start_date end_date (Some o) r direct_organization type
          subscription_tier_id],
       match snd (subscription_service_get_periods_summary auth start_date end_date
                    (Some o) r direct_organization type subscription_tier_id db) with
       | Ok ps => Ok {| periods := ps |}
       | Err e => Err e
       end) in
    match find_organization db platform name with
    | None => run = ([OrgGetByName platform name],
                     Err (ResourceNotFound "Organization not found"%string))
    | Some o =>
        match rn with
        | None => run = (OrgGetByName platform name :: fst (summary o None),
                         snd (summary o None))
        | Some n =>
            match find_repository db (organization_id o) n with
            | None => run = ([OrgGetByName platform name;
                              RepoGetByOrgAndName (organization_id o) n],
                             Err (ResourceNotFound "Repository not found"%string))
            | Some r =>
                run = (OrgGetByName platform name
                       :: RepoGetByOrgAndName (organization_id o) n
                       :: fst (summary o (Some r)), snd (summary o (Some r)))
            end
        end
    end.
Proof.
  intros. subst run summary. unfold_handlers.
  destruct (find_organization db platform name) as [o|]; [|reflexivity].
  destruct rn as [n|]; simpl.
  - destruct (find_repository db (organization_id o) n); simpl; [|reflexivity].
    destruct (date_leb start_date end_date); reflexivity.
  - destruct (date_leb start_date end_date); reflexivity.
Qed.

(** The subscriptions search looks the organization up only when a name and
    platform pair is given, looks the repository up only inside a resolved
    organization, and then issues one search with the request's filters,
    sorting and pagination unchanged. *)
Theorem search_subscriptions_trace :
  forall db auth pagination sorting onp rn direct_organization type
         subscription_tier_id subscriber_user_id,
    let run := search_subscriptions auth pagination sorting onp rn
                 direct_organization type subscription_tier_id subscriber_user_id db in
    let search o r := SubscriptionSearch auth type o r direct_organization
                        subscription_tier_id subscriber_user_id pagination sorting in
    match onp with
    | None =>
        match rn with
        | None => fst run = [search None None] /\ exists res, snd run = Ok res
        | Some _ => fst run = [] /\ exists msg, snd run = Err (BadRequest msg)
        end
    | Some (name, platform) =>
        match find_organization db platform name with
        | None => run = ([OrgGetByName platform name],
                         Err (ResourceNotFound "Organization not found"%string))
        | Some o =>
            match rn with
            | None => fst run = [OrgGetByName platform name; search (Some o) None]
                      /\ exists res, snd run = Ok res
            | Some n =>
                match find_repository db (organization_id o) n with
                | None => run = ([OrgGetByName platform name;
                                  RepoGetByOrgAndName (organization_id o) n],
                                 Err (ResourceNotFound "Repository not found"%string))
                | Some r =>
                    fst run = [OrgGetByName platform name;
                               RepoGetByOrgAndName (organization_id o) n;
                               search (Some o) (Some r)]
                    /\ exists res, snd run = Ok res
                end
            end
        end
    end.
Proof.
  intros. subst run search. unfold_handlers.
  destruct onp as [[name platform]|].
  - destruct (find_organization db platform name) as [o|]; [|reflexivity].
    destruct rn as [n|]; simpl.
    + destruct (find_repository db (organization_id o) n); simpl; eauto.
    + eauto.
  - destruct rn; simpl; eauto.
Qed.

(** The router's dependency either lets the endpoint run, for a user for whom
    the feature flag is on (or no client is configured), or answers 401 or
    403 with no query issued, whatever the endpoint. *)
Theorem subscriptions_router_short_circuit :
  forall A client subject (endpoint : M A) db,
    (exists u, subject = UserSubject u
               /\ is_feature_flag_enabled client u = Ok tt
               /\ subscriptions_router client subject endpoint db = endpoint db)
    \/ (fst (subscriptions_router client subject endpoint db) = []
        /\ (snd (subscriptions_router client subject endpoint db) = Err NotAuthenticated
            \/ snd (subscriptions_router client subject endpoint db)
               = Err (HTTPException 403 "You don't have access to this feature."%string))).
Proof.
  intros A client [|u] endpoint db; unfold subscriptions_router; simpl.
  - right. auto.
  - destruct client as [c|]; unfold is_feature_flag_enabled; [|left; eauto].
    destruct (c "subscriptions"%string (posthog_distinct_id u)) eqn:E; simpl;
      [left; exists u; rewrite E; auto | right; auto].
Qed.

Section EntityEndpointFacts.

Context {SubscriptionTierUpdate SubscriptionBenefit SubscriptionBenefitUpdate
         SubscribeSession AuthMethod Authz BenefitGrants BenefitRevokes : Type}.

Variable tier_get_by_id : Subject -> nat -> M (option SubscriptionTier).
Variable tier_user_update :
  Authz -> SubscriptionTier -> SubscriptionTierUpdate -> User -> M SubscriptionTier.
Variable tier_archive : Authz -> SubscriptionTier -> User -> M SubscriptionTier.
Variable tier_update_benefits :
  Authz -> SubscriptionTier -> list nat -> User
  -> M (SubscriptionTier * BenefitGrants * BenefitRevokes).
Variable tier_create_subscribe_session :
  SubscriptionTier -> string -> Subject -> AuthMethod -> option string
  -> M SubscribeSession.
Variable benefit_get_by_id : Subject -> nat -> M (option SubscriptionBenefit).
Variable benefit_user_update :
  Authz -> SubscriptionBenefit -> SubscriptionBenefitUpdate -> User
  -> M SubscriptionBenefit.
Variable benefit_user_delete : Authz -> SubscriptionBenefit -> User -> M unit.

Lemma bind_none_not_found {A B} (m : M (option A)) (k : A -> M B) db tr :
  m db = (tr, Ok None) ->
  bind m (fun x => match x with None => raise not_found | Some a => k a end) db
  = (tr, Err not_found).
Proof.
  intros H. unfold bind. rewrite H. simpl. now rewrite app_nil_r.
Qed.

(** Every endpoint that looks a tier or a benefit up by id answers
    [ResourceNotFound] when the lookup finds nothing, with the lookup's queries
    as its only data-store accesses: the update, archive, benefit update,
    delete and checkout services are never called on a missing entity. *)
Theorem entity_endpoints_missing_not_found :
  forall db tr,
    (forall id auth,
       tier_get_by_id auth id db = (tr, Ok None) ->
       lookup_subscription_tier tier_get_by_id id auth db = (tr, Err not_found)
       /\ forall (session_create : SubscribeSessionCreate) (auth_method : AuthMethod),
            tier_id_of_session session_create = id ->
            create_subscribe_session tier_get_by_id tier_create_subscribe_session
              session_create auth auth_method db = (tr, Err not_found))
    /\ (forall id auth (authz : Authz),
          tier_get_by_id (UserSubject auth) id db = (tr, Ok None) ->
          (forall update, update_subscription_tier tier_get_by_id tier_user_update
                            id update auth authz db = (tr, Err not_found))
          /\ archive_subscription_tier tier_get_by_id tier_archive id auth authz db
             = (tr, Err not_found)
          /\ (forall benefits, update_subscription_tier_benefits tier_get_by_id
                                 tier_update_benefits id benefits auth authz db
                               = (tr, Err not_found)))
    /\ (forall id auth (authz : Authz),
          benefit_get_by_id (UserSubject auth) id db = (tr, Ok None) ->
          lookup_subscription_benefit benefit_get_by_id id auth db = (tr, Err not_found)
          /\ (forall update, update_subscription_benefit benefit_get_by_id
                               benefit_user_update id update auth authz db
                             = (tr, Err not_found))
          /\ delete_subscription_benefit benefit_get_by_id benefit_user_delete id auth
               authz db = (tr, Err not_found)).
Proof.
  intros db tr. split; [|split].
  - intros id auth H. split.
    + exact (bind_none_not_found _ ret db tr H).
    + intros sc am Hid. unfold create_subscribe_session. rewrite Hid.
      exact (bind_none_not_found _ _ db tr H).
  - intros id auth authz H.
    split; [|split]; [intros| |intros];
      exact (bind_none_not_found _ _ db tr H).
  - intros id auth authz H.
    split; [|split]; [|intros|];
      exact (bind_none_not_found _ _ db tr H).
Qed.

End EntityEndpointFacts.

Section BenefitsSearchFacts.

Context {SubscriptionBenefit SubscriptionBenefitType SubscriptionBenefitSchema : Type}.

Variable benefit_search :
  Subject -> option SubscriptionBenefitType -> Organization -> option Repository
  -> bool -> PaginationParams -> M (list SubscriptionBenefit * nat).
Variable benefit_type : SubscriptionBenefit -> SubscriptionBenefitType.
Variable schema_map :
  SubscriptionBenefitType -> SubscriptionBenefit -> SubscriptionBenefitSchema.

(** The benefits search fails before the benefit search service is called
    when the organization or the named repository is missing: NotFound after
    the organization lookup alone, or after the organization and repository
    lookups, whatever the search service. *)
Theorem search_subscription_benefits_not_found :
  forall db pagination name auth rn direct_organization type platform,
    (find_organization db platform name = None ->
     search_subscription_benefits benefit_search benefit_type schema_map pagination
       name auth rn direct_organization type platform db
     = ([OrgGetByName platform name],
        Err (ResourceNotFound "Organization not found"%string)))
    /\ (forall o n,
          find_organization db platform name = Some o ->
          rn = Some n ->
          find_repository db (organization_id o) n = None ->
          search_subscription_benefits benefit_search benefit_type schema_map
            pagination name auth rn direct_organization type platform db
          = ([OrgGetByName platform name; RepoGetByOrgAndName (organization_id o) n],
             Err (ResourceNotFound "Repository not found"%string))).
Proof.
  intros db pg name auth rn dir ty platform. split.
  - intros Eo. unfold search_subscription_benefits. unfold_handlers.
    rewrite Eo. reflexivity.
  - intros o n Eo -> Er. unfold search_subscription_benefits. unfold_handlers.
    rewrite Eo. simpl. rewrite Er. reflexivity.
Qed.

(** A successful benefits search ran the search service once, after the
    organization lookup and, when a repository name is given, the repository
    lookup, and issued no other query; it ran it on the
    organization found by (platform, name) and on no repository or on the
    named repository of that same organization, as the authenticated user;
    its page is the service's results, each turned into the schema of its
    own benefit type, in order, with the service's count. *)
Theorem search_subscription_benefits_ok :
  forall db pagination name auth rn direct_organization type platform tr res,
    search_subscription_benefits benefit_search benefit_type schema_map pagination
      name auth rn direct_organization type platform db = (tr, Ok res) ->
    exists o repository results count,
      find_organization db platform name = Some o
      /\ match repository with
         | None => rn = None
         | Some r => rn = Some (repository_name r)
                     /\ repository_organization_id r = organization_id o
                     /\ find_repository db (organization_id o) (repository_name r)
                        = Some r
         end
      /\ tr = OrgGetByName platform name
              :: match repository with
                 | None => []
                 | Some r => [RepoGetByOrgAndName (organization_id o) (repository_name r)]
                 end
              ++ fst (benefit_search (UserSubject auth) type o repository
                        direct_organization pagination db)
      /\ snd (benefit_search (UserSubject auth) type o repository direct_organization
                pagination db) = Ok (results, count)
      /\ res = from_paginated_results
                 (map (fun b => schema_map (benefit_type b) b) results) count
                 pagination.
Proof.
  intros db pg name auth rn dir ty platform tr res.
  unfold search_subscription_benefits. unfold_handlers.
  destruct (find_organization db platform name) as [o|] eqn:Eo; [|discriminate].
  destruct rn as [n|]; simpl.
  - destruct (find_repository db (organization_id o) n) as [r|] eqn:Er;
      simpl; [|discriminate].
    destruct (benefit_search (UserSubject auth) ty o (Some r) dir pg db)
      as [t [[results count]|e]] eqn:Es; simpl; [|discriminate].
    intros H. injection H as <- <-.
    pose proof (find_repository_sound _ _ _ _ Er) as [Ho Hn]. subst n.
    exists o, (Some r), results, count.
    rewrite Es. simpl. rewrite app_nil_r. repeat split; auto.
  - destruct (benefit_search (UserSubject auth) ty o None dir pg db)
      as [t [[results count]|e]] eqn:Es; simpl; [|discriminate].
    intros H. injection H as <- <-.
    exists o, None, results, count.
    rewrite Es. simpl. rewrite app_nil_r. repeat split; auto.
Qed.

End BenefitsSearchFacts.

Section EntityEndpointDelegation.

Context {SubscriptionTierUpdate SubscriptionBenefit SubscriptionBenefitUpdate
         SubscribeSession AuthMethod Authz BenefitGrants BenefitRevokes : Type}.

Variable tier_get_by_id : Subject -> nat -> M (option SubscriptionTier).
Variable tier_user_update :
  Authz -> SubscriptionTier -> SubscriptionTierUpdate -> User -> M SubscriptionTier.
Variable tier_archive : Authz -> SubscriptionTier -> User -> M SubscriptionTier.
Variable tier_update_benefits :
  Authz -> SubscriptionTier -> list nat -> User
  -> M (SubscriptionTier * BenefitGrants * BenefitRevokes).
Variable tier_create_subscribe_session :
  SubscriptionTier -> string -> Subject -> AuthMethod -> option string
  -> M SubscribeSession.
Variable benefit_get_by_id : Subject -> nat -> M (option SubscriptionBenefit).
Variable benefit_user_update :
  Authz -> SubscriptionBenefit -> SubscriptionBenefitUpdate -> User
  -> M SubscriptionBenefit.
Variable benefit_user_delete : Authz -> SubscriptionBenefit -> User -> M unit.

Lemma bind_some_delegates {A B} (m : M (option A)) (k : A -> M B) db tr a :
  m db = (tr, Ok (Some a)) ->
  bind m (fun x => match x with None => raise not_found | Some a => k a end) db
  = (tr ++ fst (k a db), snd (k a db)).
Proof.
  intros H. unfold bind. rewrite H. now destruct (k a db).
Qed.

(** When the lookup by id finds the tier or the benefit, each endpoint that
    acts on it hands exactly that entity, with the request's own update,
    benefit ids, checkout URL and e-mail, to its service; its queries are the
    lookup's followed by the service's, and it answers the service's result:
    the updated or archived tier (the first component of the benefit update's
    triple), the checkout session, or no content once the benefit is deleted. *)
Theorem entity_endpoints_found_delegate :
  forall db tr,
    (forall id auth (authz : Authz) t,
       tier_get_by_id (UserSubject auth) id db = (tr, Ok (Some t)) ->
       (forall update,
          update_subscription_tier tier_get_by_id tier_user_update id update auth authz db
          = (tr ++ fst (tier_user_update authz t update auth db),
             snd (tier_user_update authz t update auth db)))
       /\ archive_subscription_tier tier_get_by_id tier_archive id auth authz db
          = (tr ++ fst (tier_archive authz t auth db), snd (tier_archive authz t auth db))
       /\ (forall benefits,
             update_subscription_tier_benefits tier_get_by_id tier_update_benefits id
               benefits auth authz db
             = (tr ++ fst (tier_update_benefits authz t benefits auth db),
                match snd (tier_update_benefits authz t benefits auth db) with
                | Ok (t', _, _) => Ok t'
                | Err e => Err e
                end)))
    /\ (forall (session_create : SubscribeSessionCreate) auth auth_method t,
          tier_get_by_id auth (tier_id_of_session session_create) db = (tr, Ok (Some t)) ->
          create_subscribe_session tier_get_by_id tier_create_subscribe_session
            session_create auth auth_method db
          = (tr ++ fst (tier_create_subscribe_session t (success_url session_create) auth
                          auth_method (customer_email session_create) db),
             snd (tier_create_subscribe_session t (success_url session_create) auth
                    auth_method (customer_email session_create) db)))
    /\ (forall id auth (authz : Authz) b,
          benefit_get_by_id (UserSubject auth) id db = (tr, Ok (Some b)) ->
          (forall update,
             update_subscription_benefit benefit_get_by_id benefit_user_update id update
               auth authz db
             = (tr ++ fst (benefit_user_update authz b update auth db),
                snd (benefit_user_update authz b update auth db)))
          /\ delete_subscription_benefit benefit_get_by_id benefit_user_delete id auth
               authz db
             = (tr ++ fst (benefit_user_delete authz b auth db),
                match snd (benefit_user_delete authz b auth db) with
                | Ok _ => Ok tt
                | Err e => Err e
                end)).
Proof.
  intros db tr. split; [|split].
  - intros id auth authz t H. split; [|split].
    + intros update. exact (bind_some_delegates _ _ db tr t H).
    + exact (bind_some_delegates _ _ db tr t H).
    + intros benefits. unfold update_subscription_tier_benefits.
      rewrite (bind_some_delegates _ _ db tr t H).
      unfold bind, ret.
      destruct (tier_update_benefits authz t benefits auth db)
        as [t1 [[[t' g] r]|e]]; simpl; now rewrite ?app_nil_r.
  - intros sc auth am t H. exact (bind_some_delegates _ _ db tr t H).
  - intros id auth authz b H. split.
    + intros update. exact (bind_some_delegates _ _ db tr b H).
    + unfold delete_subscription_benefit.
      rewrite (bind_some_delegates _ _ db tr b H).
      unfold bind, ret.
      destruct (benefit_user_delete authz b auth db) as [t1 [[]|e]]; simpl;
        now rewrite ?app_nil_r.
Qed.

End EntityEndpointDelegation.

(** Tier 99 is not in [acme_db]: looking it up, archiving it and checking out
    on it all answer NotFound; the store has no benefit 5 to delete. *)
Lemma entity_endpoints_missing_not_found_witness :
  lookup_subscription_tier db_tier_get_by_id 99 Anonymous acme_db = ([], Err not_found)
  /\ archive_subscription_tier db_tier_get_by_id
       (fun (_ : unit) t (_ : User) => ret t) 99 alice tt acme_db = ([], Err not_found)
  /\ create_subscribe_session db_tier_get_by_id
       (fun t (_ : string) (_ : Subject) (_ : unit) (_ : option string) => ret t)
       {| tier_id_of_session := 99; success_url := "https://acme.test"%string;
          customer_email := None |} Anonymous tt acme_db = ([], Err not_found)
  /\ delete_subscription_benefit no_benefit_get_by_id
       (fun (_ : unit) (_ : unit) (_ : User) => ret tt) 5 alice tt acme_db
     = ([], Err not_found).
Proof.
  destruct (entity_endpoints_missing_not_found
              (SubscriptionTierUpdate := unit) (BenefitGrants := unit)
              (BenefitRevokes := unit) (SubscriptionBenefitUpdate := unit)
              db_tier_get_by_id (fun (_ : unit) t (_ : unit) (_ : User) => ret t)
              (fun (_ : unit) t (_ : User) => ret t)
              (fun (_ : unit) t (_ : list nat) (_ : User) => ret (t, tt, tt))
              (fun t (_ : string) (_ : Subject) (_ : unit) (_ : option string) => ret t)
              no_benefit_get_by_id
              (fun (_ : unit) b (_ : unit) (_ : User) => ret b)
              (fun (_ : unit) (_ : unit) (_ : User) => ret tt)
              acme_db []) as [Ht [Hu Hb]].
  split; [|split; [|split]].
  - apply (Ht 99 Anonymous). reflexivity.
  - apply (Hu 99 alice tt). reflexivity.
  - apply (Ht 99 Anonymous); reflexivity.
  - apply (Hb 5 alice tt). reflexivity.
Defined.

(** Tier 1 of [acme_db] is found: archiving it returns what the archive
    service returns on it, and a checkout on it is the session the checkout
    service builds from the request's URL. *)
Lemma entity_endpoints_found_delegate_witness :
  archive_subscription_tier db_tier_get_by_id
    (fun (_ : unit) t (_ : User) =>
       ret {| tier_id := tier_id t; tier_type := tier_type t;
              tier_price_amount := tier_price_amount t;
              tier_organization_id := tier_organization_id t;
              tier_repository_id := tier_repository_id t;
              tier_is_archived := true |}) 1 alice tt acme_db
  = ([], Ok {| tier_id := 1; tier_type := hobby; tier_price_amount := 500;
               tier_organization_id := 1; tier_repository_id := None;
               tier_is_archived := true |})
  /\ create_subscribe_session db_tier_get_by_id
       (fun t url (_ : Subject) (_ : unit) (_ : option string) => ret (tier_id t, url))
       {| tier_id_of_session := 1; success_url := "https://acme.test"%string;
          customer_email := None |} Anonymous tt acme_db
     = ([], Ok (1, "https://acme.test"%string)).
Proof.
  destruct (entity_endpoints_found_delegate
              (SubscriptionTierUpdate := unit) (BenefitGrants := unit)
              (BenefitRevokes := unit) (SubscriptionBenefitUpdate := unit)
              db_tier_get_by_id (fun (_ : unit) t (_ : unit) (_ : User) => ret t)
              (fun (_ : unit) t (_ : User) =>
                 ret {| tier_id := tier_id t; tier_type := tier_type t;
                        tier_price_amount := tier_price_amount t;
                        tier_organization_id := tier_organization_id t;
                        tier_repository_id := tier_repository_id t;
                        tier_is_archived := true |})
              (fun (_ : unit) t (_ : list nat) (_ : User) => ret (t, tt, tt))
              (fun t url (_ : Subject) (_ : unit) (_ : option string) => ret (tier_id t, url))
              no_benefit_get_by_id
              (fun (_ : unit) b (_ : unit) (_ : User) => ret b)
              (fun (_ : unit) (_ : unit) (_ : User) => ret tt)
              acme_db []) as [Ht [Hc _]].
  split.
  - destruct (Ht 1 alice tt acme_tier) as [_ [Ha _]]; [reflexivity|].
    rewrite Ha. reflexivity.
  - rewrite (Hc _ Anonymous tt acme_tier); reflexivity.
Defined.

(** No organization "nope" in [acme_db]; "acme" has no repository "nope". *)
Lemma search_subscription_benefits_not_found_witness :
  search_subscription_benefits tier_benefit_search tier_type
    (fun ty t => (ty, tier_id t)) first_page "nope"%string alice None false None
    github acme_db
  = ([OrgGetByName github "nope"%string],
     Err (ResourceNotFound "Organization not found"%string))
  /\ search_subscription_benefits tier_benefit_search tier_type
       (fun ty t => (ty, tier_id t)) first_page "acme"%string alice
       (Some "nope"%string) false None github acme_db
     = ([OrgGetByName github "acme"%string; RepoGetByOrgAndName 1 "nope"%string],
        Err (ResourceNotFound "Repository not found"%string)).
Proof.
  destruct (search_subscription_benefits_not_found tier_benefit_search tier_type
              (fun ty t => (ty, tier_id t)) acme_db first_page "nope"%string alice
              None false None github) as [Ho _].
  destruct (search_subscription_benefits_not_found tier_benefit_search tier_type
              (fun ty t => (ty, tier_id t)) acme_db first_page "acme"%string alice
              (Some "nope"%string) false None github) as [_ Hr].
  split.
  - apply Ho. reflexivity.
  - apply (Hr acme); reflexivity.
Defined.

(** The benefits search of "acme" in [acme_db] succeeds, on "acme" itself and
    no repository, with the store's two tiers as the page. *)
Lemma search_subscription_benefits_ok_witness :
  exists tr res,
    search_subscription_benefits tier_benefit_search tier_type
      (fun ty t => (ty, tier_id t)) first_page "acme"%string alice None false None
      github acme_db = (tr, Ok res)
    /\ exists o repository results count,
         find_organization acme_db github "acme"%string = Some o
         /\ match repository with
            | None => None = @None string
            | Some r => None = Some (repository_name r)
                        /\ repository_organization_id r = organization_id o
                        /\ find_repository acme_db (organization_id o)
                             (repository_name r) = Some r
            end
         /\ tr = OrgGetByName github "acme"%string
                 :: match repository with
                    | None => []
                    | Some r => [RepoGetByOrgAndName (organization_id o)
                                   (repository_name r)]
                    end
                 ++ fst (tier_benefit_search (UserSubject alice) None o repository
                           false first_page acme_db)
         /\ snd (tier_benefit_search (UserSubject alice) None o repository false
                   first_page acme_db) = Ok (results, count)
         /\ res = from_paginated_results
                    (map (fun b => (tier_type b, tier_id b)) results) count first_page.
Proof.
  eexists; eexists; split; [reflexivity|].
  eapply (search_subscription_benefits_ok tier_benefit_search tier_type
           (fun ty t => (ty, tier_id t)) acme_db first_page "acme"%string alice None
           false None github).
  reflexivity.
Defined.

(** The tier search of "acme"/"widgets" in [inherited_db] looks both up and
    runs one search scoped to them, which succeeds. *)
Lemma search_subscription_tiers_trace_witness :
  fst (search_subscription_tiers first_page "acme"%string (Some "widgets"%string)
         false false None github Anonymous inherited_db)
  = [OrgGetByName github "acme"%string; RepoGetByOrgAndName 1 "widgets"%string;
     TierSearch Anonymous None (Some acme) (Some widgets) false false first_page]
  /\ exists res, snd (search_subscription_tiers first_page "acme"%string
                        (Some "widgets"%string) false false None github Anonymous
                        inherited_db) = Ok res.
Proof.
  exact (search_subscription_tiers_trace inherited_db first_page "acme"%string
           (Some "widgets"%string) false false None github Anonymous).
Defined.

(** The summary of "acme" in [summary_db] from January to March 2024 looks the
    organization up and then runs one periods query scoped to it. *)
Lemma get_subscriptions_summary_trace_witness :
  fst (get_subscriptions_summary alice "acme"%string None github jan_1_2024
         mar_31_2024 false None None summary_db)
  = [OrgGetByName github "acme"%string;
     PeriodsSummary alice jan_1_2024 mar_31_2024 (Some acme) None false None None].
Proof.
  exact (f_equal fst (get_subscriptions_summary_trace summary_db alice "acme"%string
           None github jan_1_2024 mar_31_2024 false None None)).
Defined.
